(** * The new-course directives: [file], [localImage], [professorslist]

    A shallow embedding of
    [administration/static/js/new-course/directives.js].

    The three directives are glue between the host framework (AngularJS),
    the DOM and the File API.  Each directive is embedded as functions on
    an explicit state; code that can raise runs in a small state-and-
    exception monad, so that what was already written when an exception
    escapes stays visible.  The pieces of the platform the directives call
    (jqLite's [attr], [NgModelController.$setViewValue], [FileReader]) are
    modelled next to their callers and marked as such. *)

From Stdlib Require Import ZArith Ascii String List Bool Lia.
From stdpp Require Import base strings gmap list.

Local Open Scope string_scope.

(** ** JavaScript values *)

Module JS.

(** A [File] of the File API: name, MIME type and content. *)
Record file := File { file_name : string; file_type : string; file_content : string }.

(** Classes of the objects that are not [File]s. *)
Inductive obj_class :=
| Plain
| Array
| Blob
| Date
| UserClass (class_name : string).

(** What [v.constructor] can be. *)
Inductive ctor :=
| CFile
| CString
| CNumber
| CBoolean
| CFunction
| CClass (c : obj_class).

#[local] Set Warnings "-register-all".

(** Values.  A function is known by an identity only: the directives never
    look inside a function, they store it or call it.  An object carries
    its class (which fixes its [constructor]) and its other properties in
    insertion order. *)
Inductive value :=
| VUndefined
| VNull
| VBool (b : bool)
| VNumber (n : Z)
| VNaN
| VString (s : string)
| VFile (f : file)
| VFunction (fid : nat)
| VObject (c : obj_class) (props : list (string * value)).

(** ToBoolean: the falsy values are [undefined], [null], [false], [0],
    [NaN] and the empty string. *)
Definition truthy (v : value) : bool :=
  match v with
  | VUndefined | VNull | VNaN => false
  | VBool b => b
  | VNumber n => negb (n =? 0)%Z
  | VString s => negb (String.eqb s "")
  | VFile _ | VFunction _ | VObject _ _ => true
  end.

(** [v.constructor], for a [v] that is neither [undefined] nor [null]
    (every read below is guarded by the truthiness of [v]). *)
Definition constructor_of (v : value) : option ctor :=
  match v with
  | VUndefined | VNull => None
  | VBool _ => Some CBoolean
  | VNumber _ | VNaN => Some CNumber
  | VString _ => Some CString
  | VFile _ => Some CFile
  | VFunction _ => Some CFunction
  | VObject c _ => Some (CClass c)
  end.

Definition is_CFile (c : option ctor) : bool :=
  match c with Some CFile => true | _ => false end.

(** The identity of the built-in [Function.prototype.call]. *)
Definition fid_Function_call : nat := 0.

Fixpoint assoc (k : string) (props : list (string * value)) : value :=
  match props with
  | [] => VUndefined
  | (k', v) :: rest => if String.eqb k k' then v else assoc k rest
  end.

(** [v[k]] for a truthy [v]: an object answers from its properties, a
    function inherits [call], everything else has no such member. *)
Definition get_prop (v : value) (k : string) : value :=
  match v with
  | VObject _ props => assoc k props
  | VFunction _ => if String.eqb k "call" then VFunction fid_Function_call else VUndefined
  | _ => VUndefined
  end.

Inductive exn :=
| TypeError (msg : string)
| InvalidStateError (msg : string)
| Error (msg : string).

(** *** Computations that may raise, over a state [St] *)

Inductive completion (A : Type) :=
| Normal (a : A)
| Throw (e : exn).
Arguments Normal {A} a.
Arguments Throw {A} e.

Definition M (St A : Type) : Type := St -> completion A * St.

Definition ret {St A} (a : A) : M St A := fun s => (Normal a, s).

Definition bind {St A B} (m : M St A) (k : A -> M St B) : M St B :=
  fun s =>
    match m s with
    | (Normal a, s') => k a s'
    | (Throw e, s') => (Throw e, s')
    end.

Definition throw {St A} (e : exn) : M St A := fun s => (Throw e, s).
Definition get {St} : M St St := fun s => (Normal s, s).
Definition modify {St} (f : St -> St) : M St unit := fun s => (Normal tt, f s).

(** [for (x in xs) acc = body(acc, x)], stopping at the first exception. *)
Fixpoint for_in {St A B} (xs : list B) (body : A -> B -> M St A) (acc : A) : M St A :=
  match xs with
  | [] => ret acc
  | x :: rest => bind (body acc x) (for_in rest body)
  end.

End JS.

Import JS.

Declare Scope js_scope.
Delimit Scope js_scope with js.
Notation "'let!' x ':=' m 'in' k" := (bind m (fun x => k))
  (at level 10, x name, m at level 100, k at level 200) : js_scope.
Notation "m ';;;' k" := (bind m (fun _ => k))
  (at level 100, k at level 200, right associativity) : js_scope.
Local Open Scope js_scope.

(** ** Strings: the regular expressions and [trim] of the [file] directive

    A string is a sequence of code units below 256, which covers every
    character the two patterns and [trim] tell apart in that range. *)

Module Str.

Local Open Scope char_scope.

(** [\w]: ASCII letters, digits and the underscore. *)
Definition is_word_char (c : ascii) : bool :=
  let n := nat_of_ascii c in
  (Nat.leb 97 n && Nat.leb n 122) || (Nat.leb 65 n && Nat.leb n 90)
  || (Nat.leb 48 n && Nat.leb n 57) || Nat.eqb n 95.

Definition is_sp (c : ascii) : bool := Ascii.eqb c " ".

(** White space of [String.prototype.trim] among the code units below
    256: TAB, LF, VT, FF, CR, SPACE and NBSP. *)
Definition is_ws (c : ascii) : bool :=
  let n := nat_of_ascii c in
  (Nat.leb 9 n && Nat.leb n 13) || Nat.eqb n 32 || Nat.eqb n 160.

(** [/^ng/.test(s)] *)
Definition test_ng (s : string) : bool :=
  match s with
  | String "n" (String "g" _) => true
  | _ => false
  end.

(** Does [ng[^ ]+] match at the head of [String c r]?  ([\b] is checked by
    the caller, which knows the preceding character.) *)
Definition ng_token_here (c : ascii) (r : string) : bool :=
  match c, r with
  | "n", String "g" (String x _) => negb (is_sp x)
  | _, _ => false
  end.

(** Where the scan of [/\bng[^ ]+ */g] stands: looking for the next match
    ([Scan], remembering whether the previous character is a word
    character), or inside a match: on the [g], in the run [[^ ]+], or in
    the run of trailing spaces. *)
Inductive mode :=
| Scan (prev_word : bool)
| OnG
| InToken
| InSpaces.

(** [s.replace(/\bng[^ ]+ */g, '')], one character at a time.  Both runs
    of the pattern are greedy and cannot give anything back, so a match
    goes on to the first space after its token and then over every space
    that follows; the search resumes right after it. *)
Fixpoint strip (m : mode) (s : string) : string :=
  match s with
  | EmptyString => EmptyString
  | String c r =>
      match m with
      | Scan prev_word =>
          if negb prev_word && ng_token_here c r then strip OnG r
          else String c (strip (Scan (is_word_char c)) r)
      | OnG => strip InToken r
      | InToken => if is_sp c then strip InSpaces r else strip InToken r
      | InSpaces =>
          if is_sp c then strip InSpaces r
          else if ng_token_here c r then strip OnG r
          else String c (strip (Scan (is_word_char c)) r)
      end
  end.

Definition replace_ng (s : string) : string := strip (Scan false) s.

Fixpoint trim_left (s : string) : string :=
  match s with
  | EmptyString => EmptyString
  | String c r => if is_ws c then trim_left r else s
  end.

Fixpoint trim_right (s : string) : string :=
  match s with
  | EmptyString => EmptyString
  | String c r =>
      match trim_right r with
      | EmptyString => if is_ws c then EmptyString else String c EmptyString
      | r' => String c r'
      end
  end.

(** [s.trim()] *)
Definition trim (s : string) : string := trim_right (trim_left s).

(** Does [/\bng[^ ]+ */] match anywhere in [s], when the character before
    [s] is a word character or not as [prev_word] says? *)
Fixpoint has_ng_token (prev_word : bool) (s : string) : bool :=
  match s with
  | EmptyString => false
  | String c r =>
      (negb prev_word && ng_token_here c r) || has_ng_token (is_word_char c) r
  end.

(** Is the first, is the last character of [s] white space for [trim]? *)
Definition head_ws (s : string) : bool :=
  match s with
  | EmptyString => false
  | String c _ => is_ws c
  end.

Fixpoint last_ws (s : string) : bool :=
  match s with
  | EmptyString => false
  | String c r =>
      match r with
      | EmptyString => is_ws c
      | String _ _ => last_ws r
      end
  end.

(** Does [s] begin with a space?  Is [s] free of spaces? *)
Definition head_sp (s : string) : bool :=
  match s with
  | EmptyString => false
  | String c _ => is_sp c
  end.

Fixpoint no_space (s : string) : bool :=
  match s with
  | EmptyString => true
  | String c r => negb (is_sp c) && no_space r
  end.

(** [n] spaces. *)
Fixpoint spaces (n : nat) : string :=
  match n with
  | O => EmptyString
  | S k => String " " (spaces k)
  end.

(** ASCII lower case, the folding the DOM applies to attribute names in
    an HTML document (and what [toLowerCase] does to the letters A-Z). *)
Definition lower (c : ascii) : ascii :=
  let n := nat_of_ascii c in
  if Nat.leb 65 n && Nat.leb n 90 then ascii_of_nat (n + 32) else c.

Fixpoint lowercase (s : string) : string :=
  match s with
  | EmptyString => EmptyString
  | String c r => String (lower c) (lowercase r)
  end.

End Str.

(** ** The [file] directive (lines 5-30) *)

Module FileWidget.

(** *** The framework's side *)

(** The [NgModelController] of the element: the value the view last sent,
    the value bound in the host scope, and whether the control is still
    untouched. *)
Record NgModelController := {
  viewValue : value;
  modelValue : value;
  pristine : bool
}.

(** [ctrl.$setViewValue(v)].  The [file] element has no input directive
    of the framework on it, hence no parser: the view value is written
    through to the bound value as it is. *)
Definition setViewValue (v : value) (c : NgModelController) : NgModelController :=
  {| viewValue := v; modelValue := v; pristine := false |}.

(** The directive definition object, without its [link]. *)
Record directive := { restrict : string; require : string }.

Definition file_directive : directive :=
  {| restrict := "E"; require := "?ngModel" |}.

Definition optional (req : string) : bool :=
  match req with
  | String c _ => Ascii.eqb c "?"
  | EmptyString => false
  end.

(** What the framework hands to [link] as its fourth argument: the
    controller found on the element; when there is none, [null] for an
    optional requirement and an error for a mandatory one. *)
Definition resolve_require (req : string) (found : option NgModelController)
  : completion (option NgModelController) :=
  match found with
  | Some c => Normal (Some c)
  | None => if optional req then Normal None
            else Throw (Error "ctreq")
  end.

(** *** [input.onchange] (lines 12-17) *)

(** What the handler closes over: the [ngModel] argument of [link] and
    the scope, of which only the number of [$apply()] calls is kept. *)
Record handler_state := {
  ngModel : option NgModelController;
  applies : nat
}.

(** The change event: [evt.target.files] is a [FileList] (an object, hence
    truthy even when empty) or is missing. *)
Record change_event := { target_files : option (list file) }.

(** [files[0]] *)
Definition first_entry (files : list file) : value :=
  match files with
  | f :: _ => VFile f
  | [] => VUndefined
  end.

(** [ngModel.$setViewValue(v)]: a property read on [ngModel] first. *)
Definition ngModel_setViewValue (v : value) : M handler_state unit :=
  fun s =>
    match ngModel s with
    | Some c => (Normal tt, {| ngModel := Some (setViewValue v c); applies := applies s |})
    | None => (Throw (TypeError "Cannot read property '$setViewValue' of null"), s)
    end.

(** [scope.$apply()] *)
Definition scope_apply : M handler_state unit :=
  modify (fun s => {| ngModel := ngModel s; applies := S (applies s) |}).

Definition onchange (evt : change_event) : M handler_state unit :=
  (match target_files evt with
   | Some files => ngModel_setViewValue (first_entry files)
   | None => ret tt
   end) ;;;
  scope_apply.

(** *** [link] (lines 9-28) *)

(** The custom element: its attributes and the nodes appended to it.  The
    attributes are kept under their names as an HTML document stores them,
    in lower case.  A node is known by the assignments made to it: for
    each property, the value last assigned. *)
Record element := {
  attributes : gmap string string;
  children : list (gmap string value)
}.

(** The names jqLite treats as boolean attributes, in lower case. *)
Definition BOOLEAN_ATTR (name : string) : bool :=
  existsb (String.eqb name)
    ["multiple"; "selected"; "checked"; "disabled"; "readonly"; "required"; "open"].

(** [element.attr(name)] as jqLite reads an attribute of a custom element.
    The name is looked up without regard to letter case; an attribute
    that is missing reads [undefined]; one of the boolean attributes reads
    as its own lower-case name, whatever its value; any other attribute
    reads as its value. *)
Definition attr_value (el : element) (name : string) : value :=
  match attributes el !! Str.lowercase name with
  | Some v => VString (if BOOLEAN_ATTR (Str.lowercase name) then Str.lowercase name else v)
  | None => VUndefined
  end.

Definition attr (name : string) : M element value :=
  fun el => (Normal (attr_value el name), el).

(** [element.attr(name, v)] *)
Definition attr_set (name v : string) : M element unit :=
  modify (fun el => {| attributes := <[name := v]> (attributes el); children := children el |}).

(** [element.append(node)] *)
Definition append (node : gmap string value) : M element unit :=
  modify (fun el => {| attributes := attributes el; children := children el ++ [node] |}).

(** [v.replace(/\bng[^ ]+ */g, '')]: only a string has the method. *)
Definition method_replace_ng (v : value) : M element string :=
  match v with
  | VString s => ret (Str.replace_ng s)
  | VUndefined => throw (TypeError "Cannot read property 'replace' of undefined")
  | VNull => throw (TypeError "Cannot read property 'replace' of null")
  | _ => throw (TypeError "replace is not a function")
  end.

(** The identity of the function assigned to [input.onchange]. *)
Definition fid_onchange : nat := 1.

(** Lines 19-23, one turn of the loop.  The assignment [input[att] = v] is
    recorded as the value last assigned to [att]; what the input then
    makes of an assigned value is the DOM's doing, see [change_handler]
    and [is_file_input]. *)
Definition copy_attribute (input : gmap string value) (att : string)
  : M element (gmap string value) :=
  if negb (Str.test_ng att) then
    let! v := attr att in
    ret (<[att := v]> input)
  else ret input.

(** [attrs] is the framework's attribute object, as the keys [for .. in]
    enumerates with their values. *)
Definition link (attrs : list (string * value)) : M element unit :=
  let input : gmap string value := ∅ in
  let input := <["type" := VString "file"]> input in
  let input := <["onchange" := VFunction fid_onchange]> input in
  let! input := for_in (map fst attrs) copy_attribute input in
  let! cls := attr "class" in
  let! kept := method_replace_ng cls in
  let input := <["className" := VString (Str.trim kept)]> input in
  attr_set "class" "" ;;;
  append input.

(** The input as [link] creates it, before the loop. *)
Definition created_input : gmap string value :=
  <["onchange" := VFunction fid_onchange]> (<["type" := VString "file"]> ∅).

(** What the loop of lines 19-23 makes of [input] when it reads the
    attributes of [el]. *)
Definition copied (el : element) (keys : list string) (input : gmap string value)
  : gmap string value :=
  fold_left
    (fun input att => if negb (Str.test_ng att) then <[att := attr_value el att]> input else input)
    keys input.

(** The change handler of an input after the assignments recorded in
    [input]: an event handler attribute of the DOM keeps an object
    assigned to it and turns every other value into [null]. *)
Definition change_handler (input : gmap string value) : option value :=
  match input !! "onchange" with
  | Some (VFunction fid) => Some (VFunction fid)
  | Some (VObject c props) => Some (VObject c props)
  | Some (VFile f) => Some (VFile f)
  | _ => None
  end.

(** Is the input a file chooser after the assignments recorded in
    [input]?  The DOM puts the input in the file state when the string
    last assigned to [type] is [file] in any letter case. *)
Definition is_file_input (input : gmap string value) : bool :=
  match input !! "type" with
  | Some (VString t) => String.eqb (Str.lowercase t) "file"
  | _ => false
  end.

(** A run of change events on the input.  Each event runs the handler; an
    exception ends that run of the handler only, and what it had written
    stays. *)
Definition changes (evts : list change_event) (s : handler_state) : handler_state :=
  fold_left (fun s evt => snd (onchange evt s)) evts s.

(** The file list of the last of the events that carried one. *)
Fixpoint last_file_list (evts : list change_event) : option (list file) :=
  match evts with
  | [] => None
  | evt :: rest =>
      match last_file_list rest with
      | Some files => Some files
      | None => target_files evt
      end
  end.

End FileWidget.

(** ** The [localImage] directive (lines 32-55) *)

Module LocalImage.

(** [window.File] is the [File] constructor, or is missing on a platform
    without the File API. *)
Record window := { has_File : bool }.

(** The image element, [element[0]]: [img.style.display] and [img.src]. *)
Record image := { style_display : string; src : string }.

(** The [FileReader] of the File API: idle, reading a blob, or done with a
    result ([null] after a failed read). *)
Inductive readyState :=
| EMPTY
| LOADING (blob : file)
| DONE (result : option string).

(** One instance of the directive: the image, the one reader that [link]
    creates and every listener call shares, and the expressions watched
    on the scope. *)
Record state := {
  img : image;
  reader : readyState;
  watchers : list value
}.

Definition set_display (d : string) : M state unit :=
  modify (fun s => {| img := {| style_display := d; src := src (img s) |};
                      reader := reader s; watchers := watchers s |}).

Definition set_src (r : string) : M state unit :=
  modify (fun s => {| img := {| style_display := style_display (img s); src := r |};
                      reader := reader s; watchers := watchers s |}).

(** [reader.readAsDataURL(d)] as the File API defines it: the argument
    must be a blob, and a reader that is still reading refuses to start
    another read. *)
Definition readAsDataURL (d : value) : M state unit :=
  fun s =>
    match d with
    | VFile f =>
        match reader s with
        | LOADING _ => (Throw (InvalidStateError "The object is already busy reading Blobs"), s)
        | _ => (Normal tt, {| img := img s; reader := LOADING f; watchers := watchers s |})
        end
    | _ => (Throw (TypeError "parameter 1 is not of type 'Blob'"), s)
    end.

(** [reader.onload] (lines 39-41), called with [evt.target.result]. *)
Definition reader_onload (result : string) : M state unit :=
  set_src result.

(** [window.File && d && d.constructor === window.File] *)
Definition is_file_handle (w : window) (d : value) : bool :=
  has_File w && truthy d && is_CFile (constructor_of d).

(** The listener given to [scope.$watch] (lines 44-51). *)
Definition watch_listener (w : window) (d : value) : M state unit :=
  if is_file_handle w d then
    set_display "" ;;;
    readAsDataURL d
  else
    set_display "none".

(** [attrs.ngModel] and the like. *)
Definition attrs_get (attrs : list (string * value)) (k : string) : value :=
  assoc k attrs.

(** [link] (lines 35-53) on the image [i]: a fresh reader, and a watch on
    the expression in [attrs.ngModel] when there is one. *)
Definition link (attrs : list (string * value)) (i : image) : state :=
  {| img := i;
     reader := EMPTY;
     watchers := if truthy (attrs_get attrs "ngModel")
                 then [attrs_get attrs "ngModel"]
                 else [] |}.

(** What can happen to an instance after [link]. *)
Inductive event :=
| HostChange (d : value)
| ReadDone
| ReadFailed.

Section Platform.

(** The data-URL encoding of a file's content, as the reader
    produces it. *)
Variable dataURL : file -> string.

(** A digest of the host scope in which the watched expression has the
    new value [d] calls the listener of every watch; an exception of a
    listener goes to the framework's exception handler, what the
    listener wrote before stays. *)
Definition digest (w : window) (d : value) (s : state) : state :=
  fold_left (fun s _ => snd (watch_listener w d s)) (watchers s) s.

(** A reader can only finish a read it has started; [onload] runs on
    success only. *)
Definition step (w : window) (s : state) (e : event) : state :=
  match e with
  | HostChange d => digest w d s
  | ReadDone =>
      match reader s with
      | LOADING f =>
          snd (reader_onload (dataURL f)
                 {| img := img s; reader := DONE (Some (dataURL f)); watchers := watchers s |})
      | _ => s
      end
  | ReadFailed =>
      match reader s with
      | LOADING f => {| img := img s; reader := DONE None; watchers := watchers s |}
      | _ => s
      end
  end.

Definition run (w : window) (es : list event) (s : state) : state :=
  fold_left (step w) es s.

(** Files chosen one after the other, each read to its end before the
    next is observed. *)
Definition one_by_one (fs : list file) : list event :=
  flat_map (fun f => [HostChange (VFile f); ReadDone]) fs.

End Platform.

End LocalImage.

(** ** The [professorslist] directive (lines 57-78) *)

Module ProfessorsList.

(** The isolate scope: the two bindings of the directive and what the
    controller puts on it. *)
Record scope := {
  active : value;
  onSelect : value;
  professors : list value;
  selectedProfessor : value
}.

(** The scope and the calls made so far to functions of the host, each
    with its arguments. *)
Record state := {
  sc : scope;
  calls : list (nat * list value)
}.

(** The controller (lines 65-67); [query] is what [Professor.query()]
    returns. *)
Definition controller (query : list value) (active_binding onSelect_binding : value) : scope :=
  {| active := active_binding;
     onSelect := onSelect_binding;
     professors := query;
     selectedProfessor := VNull |}.

(** [f(args)]: a function of the host is called, anything else is not
    callable.  What the called function does is the host's business; the
    directive's side of it is the call, which is recorded, and the
    function is taken to return.  (Line 73 being the last statement of
    [selectProfessor], an exception of the called function would end
    [selectProfessor] after the same call.) *)
Definition call (f : value) (args : list value) : M state unit :=
  fun s =>
    match f with
    | VFunction fid => (Normal tt, {| sc := sc s; calls := calls s ++ [(fid, args)] |})
    | _ => (Throw (TypeError "$scope.onSelect is not a function"), s)
    end.

(** [$scope.selectProfessor] (lines 69-75) *)
Definition selectProfessor : M state unit :=
  let! s := get in
  if negb (truthy (selectedProfessor (sc s))) then ret tt
  else
    if truthy (onSelect (sc s)) && truthy (get_prop (onSelect (sc s)) "call") then
      call (onSelect (sc s)) [selectedProfessor (sc s)]
    else ret tt.

(** [n] confirmations in a row; an exception ends the confirmation it
    occurs in. *)
Fixpoint confirm (n : nat) (s : state) : state :=
  match n with
  | O => s
  | S k => confirm k (snd (selectProfessor s))
  end.

End ProfessorsList.

(** ** Concrete elements, files and scopes *)

Module Samples.

Import FileWidget.

(** [<file accept="image/*" class="btn big">] and the attribute object
    the framework builds for it. *)
Definition plain_file_element : element :=
  {| attributes := <["accept" := "image/*"]> (<["class" := "btn big"]> ∅);
     children := [] |}.

Definition plain_file_attrs : list (string * value) :=
  [("accept", VString "image/*"); ("class", VString "btn big");
   ("$attr", VObject Plain [("accept", VString "accept"); ("class", VString "class")])].

(** [<file accept-charset="utf-8" class="">]: the framework files the
    attribute under its normalized name [acceptCharset]. *)
Definition hyphen_file_element : element :=
  {| attributes := <["accept-charset" := "utf-8"]> (<["class" := ""]> ∅);
     children := [] |}.

Definition hyphen_file_attrs : list (string * value) :=
  [("acceptCharset", VString "utf-8"); ("class", VString "");
   ("$attr", VObject Plain [("acceptCharset", VString "accept-charset");
                            ("class", VString "class")])].

(** [<file ng-model="course.thumbnail" class="btn">] at link time: the
    model controller has already put its own classes on the element. *)
Definition bound_file_element : element :=
  {| attributes := <["ng-model" := "course.thumbnail"]>
                     (<["class" := "btn ng-pristine ng-valid"]> ∅);
     children := [] |}.

Definition bound_file_attrs : list (string * value) :=
  [("ngModel", VString "course.thumbnail"); ("class", VString "btn ng-pristine ng-valid");
   ("$attr", VObject Plain [("ngModel", VString "ng-model"); ("class", VString "class")])].

(** [<file accept="image/*">], without a class. *)
Definition classless_file_element : element :=
  {| attributes := <["accept" := "image/*"]> ∅; children := [] |}.

Definition photo : file := File "photo.png" "image/png" "PNG1".
Definition scan : file := File "scan.jpg" "image/jpeg" "JFIF".

(** A stand-in for the platform's encoder, good enough to tell two files
    apart. *)
Definition sample_dataURL (f : file) : string :=
  "data:" ++ file_type f ++ ";base64," ++ file_content f.

Definition browser : LocalImage.window := {| LocalImage.has_File := true |}.

Definition blank_image : LocalImage.image :=
  {| LocalImage.style_display := "inline"; LocalImage.src := "" |}.

(** [<img local-image ng-model="course.thumbnail">] and [<img local-image>] *)
Definition bound_image_attrs : list (string * value) :=
  [("localImage", VString ""); ("ngModel", VString "course.thumbnail")].

Definition unbound_image_attrs : list (string * value) :=
  [("localImage", VString "")].

Definition professor_A : value :=
  VObject Plain [("id", VNumber 1); ("name", VString "A")].
Definition professor_B : value :=
  VObject Plain [("id", VNumber 2); ("name", VString "B")].

(** A function of the host page. *)
Definition host_callback : value := VFunction 7.

(** An object that is not a function but has a member named [call]. *)
Definition phone : value :=
  VObject Plain [("number", VString "555"); ("call", VBool true)].

(** The scope after the directory has answered with two professors and
    the user has picked the second. *)
Definition picked_B (on_select : value) : ProfessorsList.state :=
  {| ProfessorsList.sc := {| ProfessorsList.active := VBool true;
              ProfessorsList.onSelect := on_select;
              ProfessorsList.professors := [professor_A; professor_B];
              ProfessorsList.selectedProfessor := professor_B |};
     ProfessorsList.calls := [] |}.

(** [<file onchange="track()" type="text" class="">] *)
Definition overriding_file_element : element :=
  {| attributes := <["onchange" := "track()"]> (<["type" := "text"]> (<["class" := ""]> ∅));
     children := [] |}.

Definition overriding_file_attrs : list (string * value) :=
  [("onchange", VString "track()"); ("type", VString "text"); ("class", VString "")].

(** [<file required class="">] *)
Definition required_file_element : element :=
  {| attributes := <["required" := ""]> (<["class" := ""]> ∅); children := [] |}.

Definition required_file_attrs : list (string * value) :=
  [("required", VString ""); ("class", VString "")].

(** [<img local-image ng-model="">] *)
Definition empty_binding_image_attrs : list (string * value) :=
  [("localImage", VString ""); ("ngModel", VString "")].

(** A bound preview in the middle of reading [photo]. *)
Definition reading_photo : LocalImage.state :=
  {| LocalImage.img := {| LocalImage.style_display := ""; LocalImage.src := "old.png" |};
     LocalImage.reader := LocalImage.LOADING photo;
     LocalImage.watchers := [VString "course.thumbnail"] |}.

(** A platform without the File API. *)
Definition old_browser : LocalImage.window := {| LocalImage.has_File := false |}.

End Samples.

(** * Properties *)

(** ** Sanity checks of the string functions *)

Example strip_classes : Str.trim (Str.replace_ng "btn ng-pristine  ng-valid big") = "btn big".
Proof. reflexivity. Qed.
Example strip_inner : Str.replace_ng "angular btn-ngx y ng z ng" = "angular btn-y ng z ng".
Proof. reflexivity. Qed.
Example trim_both : Str.trim "  a b   " = "a b".
Proof. reflexivity. Qed.
Example strip_all : Str.trim (Str.replace_ng "ng-scope ng-pristine") = "".
Proof. reflexivity. Qed.
Example strip_untouched : Str.replace_ng "long strong" = "long strong".
Proof. reflexivity. Qed.
Example test_ng_examples :
  Str.test_ng "ngModel" = true /\ Str.test_ng "accept" = false /\ Str.test_ng "n" = false.
Proof. repeat split. Qed.


(** ** The [file] directive *)

Section FileWidgetFacts.

Import FileWidget Samples.

(** The loop never raises and leaves the custom element alone. *)
Lemma for_in_copy_attribute (keys : list string) (input : gmap string value) (el : element) :
  for_in keys copy_attribute input el = (Normal (copied el keys input), el).
Proof.
  revert input. induction keys as [|att keys IH]; intros input; [reflexivity|].
  cbn [for_in]. unfold bind at 1, copy_attribute.
  unfold copied. cbn [fold_left].
  destruct (Str.test_ng att); cbn; apply IH.
Qed.

Lemma copied_reserved (el : element) (keys : list string) (input : gmap string value) (att : string) :
  Str.test_ng att = true -> copied el keys input !! att = input !! att.
Proof.
  intros Hng. revert input. induction keys as [|k keys IH]; intros input; [reflexivity|].
  unfold copied in *. cbn [fold_left].
  destruct (Str.test_ng k) eqn:Hk; cbn [negb]; rewrite IH; [reflexivity|].
  apply lookup_insert_ne. intros ->. congruence.
Qed.

Lemma copied_absent (el : element) (keys : list string) (input : gmap string value) (att : string) :
  ~ In att keys -> copied el keys input !! att = input !! att.
Proof.
  revert input. induction keys as [|k keys IH]; intros input Hnot; [reflexivity|].
  unfold copied in *. cbn [fold_left].
  assert (k <> att) by (intros ->; apply Hnot; left; reflexivity).
  assert (~ In att keys) by (intros Hin; apply Hnot; right; exact Hin).
  rewrite IH by assumption.
  destruct (Str.test_ng k); cbn [negb]; [reflexivity|].
  by apply lookup_insert_ne.
Qed.

Lemma copied_key (el : element) (keys : list string) (input : gmap string value) (att : string) :
  In att keys -> Str.test_ng att = false ->
  copied el keys input !! att = Some (attr_value el att).
Proof.
  revert input. induction keys as [|k keys IH]; intros input Hin Hng; [destruct Hin|].
  destruct (in_dec string_dec att keys) as [Hlater|Hlast].
  - unfold copied in *. cbn [fold_left]. by apply IH.
  - destruct Hin as [->|Hin]; [|contradiction].
    change (copied el (att :: keys) input)
      with (copied el keys (if negb (Str.test_ng att) then <[att := attr_value el att]> input else input)).
    rewrite copied_absent by assumption.
    rewrite Hng. cbn [negb]. apply lookup_insert_eq.
Qed.

(** [link] in closed form: it raises exactly when the custom element has
    no [class] attribute, before it has touched the element. *)
Lemma link_closed_form (attrs : list (string * value)) (el : element) :
  link attrs el =
  match attributes el !! "class" with
  | Some cls =>
      (Normal tt,
       {| attributes := <["class" := ""]> (attributes el);
          children := children el ++
            [<["className" := VString (Str.trim (Str.replace_ng cls))]>
               (copied el (map fst attrs) created_input)] |})
  | None => (Throw (TypeError "Cannot read property 'replace' of undefined"), el)
  end.
Proof.
  unfold link. unfold bind at 1. rewrite for_in_copy_attribute.
  unfold bind at 1, attr, attr_value.
  change (Str.lowercase "class") with "class".
  destruct (attributes el !! "class") as [cls|]; reflexivity.
Qed.

Lemma strip_without_match (s : string) (prev_word : bool) :
  Str.has_ng_token prev_word s = false -> Str.strip (Str.Scan prev_word) s = s.
Proof.
  revert prev_word. induction s as [|c r IH]; intros prev_word Hno; [reflexivity|].
  cbn [Str.has_ng_token] in Hno. apply orb_false_elim in Hno as [Hhere Hrest].
  cbn [Str.strip]. rewrite Hhere. f_equal. by apply IH.
Qed.

(** *** The change handler *)

(** C1, corrected: whenever the change event carries a file list, the
    handler sets the bound value to the first entry of that list, which is
    the first file of a selection and [undefined] for an empty list; the
    bound value is left as it was only when the event carries no file
    list at all.  Either way [scope.$apply()] runs once. *)
Theorem file_onchange_writes_first_entry
  (c : NgModelController) (n : nat) (files : list file) :
  onchange {| target_files := Some files |} {| ngModel := Some c; applies := n |}
  = (Normal tt,
     {| ngModel := Some {| viewValue := first_entry files;
                           modelValue := first_entry files;
                           pristine := false |};
        applies := S n |})
  /\ onchange {| target_files := None |} {| ngModel := Some c; applies := n |}
     = (Normal tt, {| ngModel := Some c; applies := S n |})
  /\ (forall f rest, first_entry (f :: rest) = VFile f)
  /\ first_entry [] = VUndefined.
Proof. repeat split. Qed.

(** C1 as stated fails: a cancelled selection arrives as an empty file
    list, which is an object and passes the guard of line 13, so the bound
    file is replaced by [undefined]. *)
Lemma file_cancel_overwrites_bound_value :
  let f0 := File "photo.png" "image/png" "PNG" in
  let before :=
    {| ngModel := Some {| viewValue := VFile f0; modelValue := VFile f0; pristine := false |};
       applies := 0 |} in
  let after := snd (onchange {| target_files := Some [] |} before) in
  fst (onchange {| target_files := Some [] |} before) = Normal tt
  /\ option_map modelValue (ngModel before) = Some (VFile f0)
  /\ option_map modelValue (ngModel after) = Some VUndefined
  /\ ngModel after <> ngModel before.
Proof. cbn. repeat split. discriminate. Qed.

(** C10: the directive asks for [ngModel] as optional, so without an
    [ng-model] the framework passes [null] to [link]; the handler then
    raises a [TypeError] on any event that carries a file list, before
    [scope.$apply()] is reached. *)
Theorem file_onchange_without_ngModel_throws (files : list file) (n : nat) :
  optional (require file_directive) = true
  /\ resolve_require (require file_directive) None = Normal None
  /\ onchange {| target_files := Some files |} {| ngModel := None; applies := n |}
     = (Throw (TypeError "Cannot read property '$setViewValue' of null"),
        {| ngModel := None; applies := n |}).
Proof. repeat split. Qed.

(** *** [link] *)

(** C9: on a custom element without a [class] attribute [link] raises a
    [TypeError] (the [replace] of line 24 is called on [undefined]) and
    nothing has been appended; [link] completes exactly when the element
    carries a [class] attribute, empty or not. *)
Theorem file_link_requires_class (attrs : list (string * value)) (el : element) :
  (attributes el !! "class" = None ->
   link attrs el = (Throw (TypeError "Cannot read property 'replace' of undefined"), el))
  /\ (fst (link attrs el) = Normal tt <-> is_Some (attributes el !! "class")).
Proof.
  rewrite link_closed_form.
  destruct (attributes el !! "class") as [cls|] eqn:Hcls; cbn.
  - split; [discriminate|]. split; [eauto|reflexivity].
  - split; [reflexivity|]. split; [discriminate|]. intros [? ?]. discriminate.
Qed.

(** C2, corrected: in a completed [link], for every key of [attrs] that
    does not begin with [ng] and is not [className], the value last
    assigned to the input's property of that name is what
    [element.attr(key)] returns: [undefined] when the custom element has
    no attribute of that name (letter case apart), the lower-case name
    itself for a boolean attribute, and the attribute's value otherwise.
    So for a declared attribute whose name is itself such a key, the
    input is assigned the attribute's value, or its name if it is a
    boolean attribute.  Nothing is assigned to a property whose name
    begins with [ng]. *)
Theorem file_link_copies_attributes
  (attrs : list (string * value)) (el el' : element) :
  link attrs el = (Normal tt, el') ->
  exists input,
    children el' = (children el ++ [input])%list
    /\ (forall att, In att (map fst attrs) -> Str.test_ng att = false ->
                    att <> "className" ->
                    input !! att = Some (attr_value el att))
    /\ (forall name v, attributes el !! name = Some v ->
                       Str.lowercase name = name ->
                       In name (map fst attrs) -> Str.test_ng name = false ->
                       name <> "className" ->
                       input !! name
                       = Some (VString (if BOOLEAN_ATTR name then name else v)))
    /\ (forall att, Str.test_ng att = true -> input !! att = None).
Proof.
  rewrite link_closed_form.
  destruct (attributes el !! "class") as [cls|] eqn:Hcls; [|discriminate].
  intros [= <-]. eexists; split; [reflexivity|].
  assert (forall att, In att (map fst attrs) -> Str.test_ng att = false ->
                      att <> "className" ->
                      <["className" := VString (Str.trim (Str.replace_ng cls))]>
                        (copied el (map fst attrs) created_input) !! att
                      = Some (attr_value el att)) as Hcopy.
  { intros att Hin Hng Hne. rewrite lookup_insert_ne by congruence.
    by apply copied_key. }
  split; [exact Hcopy|]. split.
  - intros name v Hv Hlower Hin Hng Hne. rewrite (Hcopy name Hin Hng Hne).
    unfold attr_value. by rewrite Hlower, Hv.
  - intros att Hng.
    rewrite lookup_insert_ne by (intros <-; discriminate Hng).
    rewrite copied_reserved by exact Hng.
    unfold created_input.
    rewrite lookup_insert_ne by (intros <-; discriminate Hng).
    rewrite lookup_insert_ne by (intros <-; discriminate Hng).
    apply lookup_empty.
Qed.

(** C6, corrected: after a completed [link] the input's [className] is the
    custom element's class string without the framework's classes (every
    match of [\bng[^ ]+ *] removed) and trimmed; it is the trimmed
    class string itself when the pattern matches nowhere in it.  The custom
    element's [class] attribute is the empty string afterwards. *)
Theorem file_link_moves_classes
  (attrs : list (string * value)) (el el' : element) :
  link attrs el = (Normal tt, el') ->
  exists cls input,
    attributes el !! "class" = Some cls
    /\ children el' = (children el ++ [input])%list
    /\ input !! "className" = Some (VString (Str.trim (Str.replace_ng cls)))
    /\ (Str.has_ng_token false cls = false ->
        input !! "className" = Some (VString (Str.trim cls)))
    /\ attributes el' !! "class" = Some "".
Proof.
  rewrite link_closed_form.
  destruct (attributes el !! "class") as [cls|] eqn:Hcls; [|discriminate].
  intros [= <-]. exists cls. eexists. cbn [attributes children].
  split; [reflexivity|]. split; [reflexivity|].
  split; [apply lookup_insert_eq|].
  split; [|apply lookup_insert_eq].
  intros Hno. rewrite lookup_insert_eq. unfold Str.replace_ng.
  by rewrite strip_without_match.
Qed.

(** *** On concrete elements *)

Lemma file_link_requires_class_witness :
  attributes classless_file_element !! "class" = None
  /\ link [("accept", VString "image/*")] classless_file_element
     = (Throw (TypeError "Cannot read property 'replace' of undefined"),
        classless_file_element).
Proof.
  split; [reflexivity|].
  apply (proj1 (file_link_requires_class [("accept", VString "image/*")] classless_file_element)).
  reflexivity.
Defined.

Lemma file_link_copies_attributes_witness :
  (exists el' input,
     link plain_file_attrs plain_file_element = (Normal tt, el')
     /\ children el' = [input]
     /\ input !! "accept" = Some (VString "image/*"))
  /\ (exists el' input,
        link required_file_attrs required_file_element = (Normal tt, el')
        /\ children el' = [input]
        /\ input !! "required" = Some (VString "required")).
Proof.
  split.
  - exists (snd (link plain_file_attrs plain_file_element)).
    destruct (file_link_copies_attributes plain_file_attrs plain_file_element
                (snd (link plain_file_attrs plain_file_element)))
      as (input & Hchildren & _ & Hdeclared & _); [vm_compute; reflexivity|].
    exists input. split; [vm_compute; reflexivity|]. split; [exact Hchildren|].
    apply (Hdeclared "accept" "image/*");
      [reflexivity | reflexivity | simpl; tauto | reflexivity | discriminate].
  - exists (snd (link required_file_attrs required_file_element)).
    destruct (file_link_copies_attributes required_file_attrs required_file_element
                (snd (link required_file_attrs required_file_element)))
      as (input & Hchildren & _ & Hdeclared & _); [vm_compute; reflexivity|].
    exists input. split; [vm_compute; reflexivity|]. split; [exact Hchildren|].
    apply (Hdeclared "required" "");
      [reflexivity | reflexivity | simpl; tauto | reflexivity | discriminate].
Defined.

(** C2 as stated fails: [accept-charset] is declared on the custom element
    and does not begin with [ng], yet the input gets no such attribute;
    the loop looks the element up under the key [acceptCharset] and
    stores the [undefined] it finds there. *)
Lemma file_link_drops_hyphenated_attribute :
  exists el' input,
    link hyphen_file_attrs hyphen_file_element = (Normal tt, el')
    /\ children el' = [input]
    /\ attributes hyphen_file_element !! "accept-charset" = Some "utf-8"
    /\ Str.test_ng "accept-charset" = false
    /\ input !! "accept-charset" = None
    /\ input !! "acceptCharset" = Some VUndefined.
Proof.
  eexists. eexists. rewrite link_closed_form.
  change (attributes hyphen_file_element !! "class") with (Some "").
  split; [reflexivity|]. split; [reflexivity|]. vm_compute. repeat split.
Qed.

Lemma file_link_moves_classes_witness :
  exists el' input,
    link plain_file_attrs plain_file_element = (Normal tt, el')
    /\ children el' = [input]
    /\ input !! "className" = Some (VString "btn big")
    /\ attributes el' !! "class" = Some "".
Proof.
  exists (snd (link plain_file_attrs plain_file_element)).
  destruct (file_link_moves_classes plain_file_attrs plain_file_element
              (snd (link plain_file_attrs plain_file_element)))
    as (cls & input & Hcls & Hchildren & _ & Hplain & Hcleared); [vm_compute; reflexivity|].
  exists input. split; [vm_compute; reflexivity|]. split; [exact Hchildren|].
  split; [|exact Hcleared].
  assert (cls = "btn big") as -> by (vm_compute in Hcls; congruence).
  apply Hplain. reflexivity.
Defined.

(** C6 as stated fails: of the classes [btn ng-pristine ng-valid] only
    [btn] reaches the input; the input's class list is not the custom
    element's former one. *)
Lemma file_link_filters_framework_classes :
  exists el' input,
    link bound_file_attrs bound_file_element = (Normal tt, el')
    /\ children el' = [input]
    /\ attributes bound_file_element !! "class" = Some "btn ng-pristine ng-valid"
    /\ input !! "className" = Some (VString "btn")
    /\ input !! "className" <> Some (VString "btn ng-pristine ng-valid").
Proof.
  eexists. eexists. rewrite link_closed_form.
  change (attributes bound_file_element !! "class") with (Some "btn ng-pristine ng-valid").
  split; [reflexivity|]. split; [reflexivity|]. split; [reflexivity|].
  rewrite lookup_insert_eq. split; [reflexivity|]. discriminate.
Qed.

End FileWidgetFacts.

(** ** The [localImage] directive *)

Section LocalImageFacts.

Import LocalImage Samples.

Variable dataURL : file -> string.

Lemma file_is_file_handle (w : window) (f : file) :
  has_File w = true -> is_file_handle w (VFile f) = true.
Proof. intros Hw. unfold is_file_handle. by rewrite Hw. Qed.

Lemma not_file_handle (w : window) (d : value) :
  constructor_of d <> Some CFile -> is_file_handle w d = false.
Proof.
  intros Hd. unfold is_file_handle.
  destruct d; cbn in *; rewrite ?andb_false_r; try reflexivity.
  congruence.
Qed.

Lemma assoc_absent (k : string) (props : list (string * value)) :
  ~ In k (map fst props) -> assoc k props = VUndefined.
Proof.
  induction props as [|[k' v] props IH]; intros Hnot; [reflexivity|].
  cbn [assoc]. destruct (String.eqb_spec k k') as [->|Hne].
  - exfalso. apply Hnot. left. reflexivity.
  - apply IH. intros Hin. apply Hnot. right. exact Hin.
Qed.

(** Without a watch, and with the reader idle, no event changes anything. *)
Lemma step_idle (w : window) (s : state) (e : event) :
  watchers s = [] -> reader s = EMPTY -> step dataURL w s e = s.
Proof.
  intros Hw Hr. destruct e; cbn.
  - unfold digest. by rewrite Hw.
  - by rewrite Hr.
  - by rewrite Hr.
Qed.

Lemma run_idle (w : window) (es : list event) (s : state) :
  watchers s = [] -> reader s = EMPTY -> run dataURL w es s = s.
Proof.
  intros Hw Hr. induction es as [|e es IH]; [reflexivity|].
  unfold run in *. cbn [fold_left]. by rewrite step_idle.
Qed.

(** C3, corrected: when the observed value is a [File] the image is made
    visible at once, in every state of the widget; if moreover the
    widget's reader is not in the middle of an earlier read, the read of
    that file is started, the listener returns normally, and when the read
    completes the image's source is the data URL of that file. *)
Theorem preview_file_shown_and_read (w : window) (s : state) (f : file) :
  has_File w = true ->
  style_display (img (snd (watch_listener w (VFile f) s))) = ""
  /\ ((forall g, reader s <> LOADING g) ->
      exists s1,
        watch_listener w (VFile f) s = (Normal tt, s1)
        /\ style_display (img s1) = ""
        /\ src (img s1) = src (img s)
        /\ reader s1 = LOADING f
        /\ watchers s1 = watchers s
        /\ src (img (step dataURL w s1 ReadDone)) = dataURL f
        /\ style_display (img (step dataURL w s1 ReadDone)) = "").
Proof.
  intros Hw. unfold watch_listener. rewrite file_is_file_handle by exact Hw.
  split.
  - unfold bind, set_display, modify, readAsDataURL. cbn.
    destruct (reader s); reflexivity.
  - intros Hidle. unfold bind, set_display, modify, readAsDataURL. cbn.
    destruct (reader s) as [|g|r] eqn:Hr;
      [| exfalso; by apply (Hidle g) |];
      (eexists; split; [reflexivity|]; cbn; repeat split).
Qed.

(** C4: a value whose constructor is not [File] ([null] and [undefined]
    have none) hides the image at once; the listener returns normally and
    the reader is left as it was, so no read is started. *)
Theorem preview_hidden_without_file (w : window) (s : state) (d : value) :
  constructor_of d <> Some CFile ->
  watch_listener w d s
  = (Normal tt,
     {| img := {| style_display := "none"; src := src (img s) |};
        reader := reader s;
        watchers := watchers s |}).
Proof.
  intros Hd. unfold watch_listener. by rewrite not_file_handle.
Qed.

(** C8: when [attrs] has no [ngModel], [link] registers no watch, and
    whatever happens afterwards the image keeps the display and the source
    it had. *)
Theorem preview_unbound_never_touches_image
  (w : window) (attrs : list (string * value)) (i : image) (es : list event) :
  ~ In "ngModel" (map fst attrs) ->
  watchers (link attrs i) = []
  /\ run dataURL w es (link attrs i) = link attrs i
  /\ img (run dataURL w es (link attrs i)) = i.
Proof.
  intros Hnone.
  assert (watchers (link attrs i) = []) as Hw.
  { unfold link, attrs_get. cbn. by rewrite assoc_absent. }
  assert (run dataURL w es (link attrs i) = link attrs i) as Hrun
    by (by apply run_idle).
  split; [exact Hw|]. split; [exact Hrun|]. by rewrite Hrun.
Qed.

End LocalImageFacts.

Section LocalImageExamples.

Import LocalImage Samples.

Lemma preview_file_shown_and_read_witness :
  exists s1,
    watch_listener browser (VFile photo) (link bound_image_attrs blank_image) = (Normal tt, s1)
    /\ style_display (img s1) = ""
    /\ reader s1 = LOADING photo
    /\ src (img (step sample_dataURL browser s1 ReadDone)) = "data:image/png;base64,PNG1".
Proof.
  destruct (preview_file_shown_and_read sample_dataURL browser
              (link bound_image_attrs blank_image) photo)
    as [_ Hread]; [reflexivity|].
  destruct Hread as (s1 & Hcall & Hshown & _ & Hreader & _ & Hsrc & _);
    [simpl; discriminate|].
  exists s1. repeat split; assumption.
Defined.

(** C3 as stated fails: a second file observed while the first is still
    being read is not read.  The reader refuses, the listener ends in an
    [InvalidStateError], and the read that completes is the first one. *)
Lemma preview_second_file_not_read :
  let s0 := link bound_image_attrs blank_image in
  let s1 := digest browser (VFile photo) s0 in
  reader s1 = LOADING photo
  /\ watch_listener browser (VFile scan) s1
     = (Throw (InvalidStateError "The object is already busy reading Blobs"), s1)
  /\ reader (digest browser (VFile scan) s1) <> LOADING scan
  /\ src (img (run sample_dataURL browser
                 [HostChange (VFile photo); HostChange (VFile scan); ReadDone] s0))
     = sample_dataURL photo
  /\ sample_dataURL photo <> sample_dataURL scan.
Proof. cbn. repeat split; discriminate. Qed.

Lemma preview_hidden_without_file_witness :
  watch_listener browser VNull (link bound_image_attrs blank_image)
  = (Normal tt,
     {| img := {| style_display := "none"; src := "" |};
        reader := EMPTY;
        watchers := [VString "course.thumbnail"] |}).
Proof.
  apply (preview_hidden_without_file browser (link bound_image_attrs blank_image) VNull).
  simpl. discriminate.
Defined.

Lemma preview_unbound_never_touches_image_witness :
  watchers (link unbound_image_attrs blank_image) = []
  /\ img (run sample_dataURL browser
            [HostChange (VFile photo); ReadDone; HostChange VNull]
            (link unbound_image_attrs blank_image)) = blank_image.
Proof.
  destruct (preview_unbound_never_touches_image sample_dataURL browser
              unbound_image_attrs blank_image
              [HostChange (VFile photo); ReadDone; HostChange VNull])
    as (Hw & _ & Himg); [simpl; intuition discriminate|].
  split; assumption.
Defined.

End LocalImageExamples.

(** ** The [professorslist] directive *)

Section ProfessorsListFacts.

Import ProfessorsList Samples.

(** C5: with no professor selected (the selection is [null], as the
    controller leaves it, or any other falsy value) [selectProfessor]
    calls nothing and changes nothing; with a record [R] selected and a
    function bound to [on-select], one [selectProfessor] makes exactly one
    call, of that function with [R] as its only argument, and leaves the
    scope, selection and list of professors included, as it was. *)
Theorem selectProfessor_calls_back_once (s : state) :
  (truthy (selectedProfessor (sc s)) = false ->
   selectProfessor s = (Normal tt, s))
  /\ (forall query a f calls0,
        selectProfessor {| sc := controller query a f; calls := calls0 |}
        = (Normal tt, {| sc := controller query a f; calls := calls0 |}))
  /\ (forall R fid,
        selectedProfessor (sc s) = R -> truthy R = true ->
        onSelect (sc s) = VFunction fid ->
        selectProfessor s
        = (Normal tt, {| sc := sc s; calls := calls s ++ [(fid, [R])] |})).
Proof.
  split; [|split].
  - intros Hnone. unfold selectProfessor, bind, get. rewrite Hnone.
    destruct s; reflexivity.
  - reflexivity.
  - intros R fid HR Htruthy Hf. unfold selectProfessor, bind, get.
    rewrite HR, Htruthy, Hf. reflexivity.
Qed.

(** C7, corrected: with a selection present, when the value bound to
    [on-select] is falsy (absent) or has no truthy member [call], as every
    number, string and boolean and every object without such a member,
    [selectProfessor] skips the call: nothing is called and nothing is
    raised. *)
Theorem selectProfessor_skips_without_call_member (s : state) :
  truthy (selectedProfessor (sc s)) = true ->
  truthy (onSelect (sc s)) = false
  \/ truthy (get_prop (onSelect (sc s)) "call") = false ->
  selectProfessor s = (Normal tt, s).
Proof.
  intros Hsel Hguard. unfold selectProfessor, bind, get. rewrite Hsel.
  cbn [negb].
  assert (truthy (onSelect (sc s)) && truthy (get_prop (onSelect (sc s)) "call") = false)
    as -> by (destruct Hguard as [-> | ->]; [reflexivity | apply andb_false_r]).
  reflexivity.
Qed.

Lemma primitives_have_no_call_member (v : value) :
  (forall c props, v <> VObject c props) -> (forall fid, v <> VFunction fid) ->
  truthy (get_prop v "call") = false.
Proof. intros Hobj Hfun. destruct v; try reflexivity; exfalso; [by eapply Hfun | by eapply Hobj]. Qed.

End ProfessorsListFacts.

Section ProfessorsListExamples.

Import ProfessorsList Samples.

Lemma selectProfessor_calls_back_once_witness :
  selectProfessor {| sc := controller [professor_A; professor_B] (VBool true) host_callback;
                     calls := [] |}
  = (Normal tt, {| sc := controller [professor_A; professor_B] (VBool true) host_callback;
                   calls := [] |})
  /\ selectProfessor (picked_B host_callback)
     = (Normal tt, {| sc := sc (picked_B host_callback); calls := [(7, [professor_B])] |}).
Proof.
  split.
  - apply (proj1 (selectProfessor_calls_back_once
                    {| sc := controller [professor_A; professor_B] (VBool true) host_callback;
                       calls := [] |})).
    reflexivity.
  - apply (proj2 (proj2 (selectProfessor_calls_back_once (picked_B host_callback)))
             professor_B 7); reflexivity.
Defined.

Lemma selectProfessor_skips_without_call_member_witness :
  selectProfessor (picked_B VUndefined) = (Normal tt, picked_B VUndefined)
  /\ selectProfessor (picked_B (VString "notify")) = (Normal tt, picked_B (VString "notify")).
Proof.
  split.
  - apply (selectProfessor_skips_without_call_member (picked_B VUndefined));
      [reflexivity | left; reflexivity].
  - apply (selectProfessor_skips_without_call_member (picked_B (VString "notify")));
      [reflexivity | right; reflexivity].
Defined.

(** C7 as stated fails: an object with a member named [call] is not
    invocable, yet it passes the guard of line 72, and calling it raises a
    [TypeError]. *)
Lemma selectProfessor_throws_on_object_with_call_member :
  (forall fid, phone <> VFunction fid)
  /\ truthy (selectedProfessor (sc (picked_B phone))) = true
  /\ selectProfessor (picked_B phone)
     = (Throw (TypeError "$scope.onSelect is not a function"), picked_B phone).
Proof. repeat split. discriminate. Qed.

End ProfessorsListExamples.

(** ** The end-to-end scenario of the professor picker *)

Example picker_scenario :
  let s0 := {| ProfessorsList.sc :=
                 ProfessorsList.controller [Samples.professor_A; Samples.professor_B]
                   (VBool true) Samples.host_callback;
               ProfessorsList.calls := [] |} in
  ProfessorsList.selectedProfessor (ProfessorsList.sc s0) = VNull
  /\ length (ProfessorsList.professors (ProfessorsList.sc s0)) = 2
  /\ ProfessorsList.calls (snd (ProfessorsList.selectProfessor (Samples.picked_B Samples.host_callback)))
     = [(7, [Samples.professor_B])].
Proof. repeat split. Qed.

(** * Further properties *)

(** ** The class filter of line 24 *)

Section ClassFilterFacts.

Import Str.

(** [ng_token_here] through equality tests. *)
Lemma ng_token_here_eqb (c : ascii) (r : string) :
  ng_token_here c r
  = Ascii.eqb c "n"
    && match r with
       | String a (String x _) => Ascii.eqb a "g" && negb (is_sp x)
       | _ => false
       end.
Proof.
  unfold ng_token_here.
  destruct c as [[] [] [] [] [] [] [] []]; try reflexivity.
  destruct r as [|a [|x r']]; try reflexivity;
    destruct a as [[] [] [] [] [] [] [] []]; reflexivity.
Qed.

Lemma ws_not_word (c : ascii) : is_ws c = true -> is_word_char c = false.
Proof. destruct c as [[] [] [] [] [] [] [] []]; vm_compute; congruence. Qed.

Lemma sp_is_ws (c : ascii) : is_sp c = true -> is_ws c = true.
Proof. unfold is_sp. intros ->%Ascii.eqb_eq. reflexivity. Qed.

(** What is kept after a character does not change whether a match
    starts at that character. *)
Lemma ng_token_here_strip (c : ascii) (r : string) :
  ng_token_here c (strip (Scan (is_word_char c)) r) = ng_token_here c r.
Proof.
  rewrite !ng_token_here_eqb.
  destruct (Ascii.eqb_spec c "n") as [->|]; [|reflexivity].
  cbn [andb]. change (is_word_char "n") with true.
  destruct r as [|a r]; [reflexivity|]. cbn [strip negb andb].
  destruct (Ascii.eqb_spec a "g") as [->|Ha].
  - change (is_word_char "g") with true.
    destruct r as [|x r]; reflexivity.
  - destruct (strip (Scan (is_word_char a)) r) as [|x r'], r as [|y r''];
      try reflexivity; apply Ascii.eqb_neq in Ha; by rewrite Ha.
Qed.

(** Whatever the scan keeps contains no match, in any mode. *)
Lemma strip_leaves_no_match (s : string) :
  (forall prev_word, has_ng_token prev_word (strip (Scan prev_word) s) = false)
  /\ has_ng_token false (strip OnG s) = false
  /\ has_ng_token false (strip InToken s) = false
  /\ has_ng_token false (strip InSpaces s) = false.
Proof.
  induction s as [|c r (IHscan & IHg & IHtoken & IHspaces)]; [by repeat split|].
  assert (forall prev_word,
            negb prev_word && ng_token_here c r = false ->
            has_ng_token prev_word (String c (strip (Scan (is_word_char c)) r)) = false)
    as Hkeep.
  { intros prev_word Hhere. cbn [has_ng_token].
    by rewrite ng_token_here_strip, Hhere, IHscan. }
  repeat split.
  - intros prev_word. cbn [strip].
    destruct (negb prev_word && ng_token_here c r) eqn:Hhere.
    + apply andb_prop in Hhere as [Hprev _].
      destruct prev_word; [discriminate|]. exact IHg.
    + by apply Hkeep.
  - exact IHtoken.
  - cbn [strip]. by destruct (is_sp c).
  - cbn [strip]. destruct (is_sp c); [exact IHspaces|].
    destruct (ng_token_here c r) eqn:Hhere; [exact IHg|]. by apply Hkeep.
Qed.

Lemma trim_left_keeps_no_match (s : string) :
  has_ng_token false s = false -> has_ng_token false (trim_left s) = false.
Proof.
  induction s as [|c r IH]; [done|]. intros Hno. cbn [trim_left].
  destruct (is_ws c) eqn:Hws; [|exact Hno].
  apply IH. cbn [has_ng_token] in Hno. apply orb_false_elim in Hno as [_ Hrest].
  by rewrite (ws_not_word c Hws) in Hrest.
Qed.

Lemma trim_right_cons (c : ascii) (r : string) :
  trim_right (String c r)
  = match trim_right r with
    | EmptyString => if is_ws c then EmptyString else String c EmptyString
    | String a r' => String c (String a r')
    end.
Proof. reflexivity. Qed.

(** Two leading characters of [trim_right r] are two leading characters
    of [r]. *)
Lemma trim_right_two (r : string) (a x : ascii) (t : string) :
  trim_right r = String a (String x t) -> exists t', r = String a (String x t').
Proof.
  destruct r as [|a' r]; [discriminate|]. rewrite trim_right_cons.
  destruct (trim_right r) as [|b u] eqn:Hr.
  - destruct (is_ws a'); discriminate.
  - intros [= -> -> ->]. destruct r as [|x' r]; [discriminate|].
    rewrite trim_right_cons in Hr.
    destruct (trim_right r); [destruct (is_ws x'); [discriminate|] |];
      injection Hr as -> _; eauto.
Qed.

Lemma trim_right_keeps_no_match (s : string) (prev_word : bool) :
  has_ng_token prev_word s = false -> has_ng_token prev_word (trim_right s) = false.
Proof.
  revert prev_word. induction s as [|c r IH]; [done|]. intros prev_word Hno.
  cbn [has_ng_token] in Hno. apply orb_false_elim in Hno as [Hhere Hrest].
  apply IH in Hrest. rewrite trim_right_cons.
  destruct (trim_right r) as [|a u] eqn:Hr.
  - destruct (is_ws c); [done|]. cbn [has_ng_token].
    rewrite ng_token_here_eqb. by rewrite !andb_false_r.
  - cbn [has_ng_token] in *. rewrite Hrest, orb_false_r.
    destruct prev_word; [done|]. cbn [negb andb] in *.
    rewrite ng_token_here_eqb in *.
    destruct u as [|x t]; [by rewrite andb_false_r|].
    destruct (trim_right_two r a x t Hr) as [t' ->]. exact Hhere.
Qed.

Lemma trim_leaves_no_match (s : string) :
  has_ng_token false s = false -> has_ng_token false (trim s) = false.
Proof.
  intros Hno. unfold trim.
  by apply trim_right_keeps_no_match, trim_left_keeps_no_match.
Qed.

Lemma head_ws_trim_left (s : string) : head_ws (trim_left s) = false.
Proof.
  induction s as [|c r IH]; [done|]. cbn [trim_left].
  destruct (is_ws c) eqn:Hws; [exact IH|]. exact Hws.
Qed.

Lemma head_ws_trim_right (s : string) : head_ws s = false -> head_ws (trim_right s) = false.
Proof.
  destruct s as [|c r]; [done|]. rewrite trim_right_cons. cbn [head_ws]. intros Hc.
  destruct (trim_right r); [by rewrite Hc|exact Hc].
Qed.

Lemma last_ws_trim_right (s : string) : last_ws (trim_right s) = false.
Proof.
  induction s as [|c r IH]; [done|]. rewrite trim_right_cons.
  destruct (trim_right r) as [|a u].
  - by destruct (is_ws c) eqn:Hws.
  - exact IH.
Qed.

Lemma trim_right_fixed (s : string) : last_ws s = false -> trim_right s = s.
Proof.
  induction s as [|c r IH]; [done|]. intros Hlast. rewrite trim_right_cons.
  destruct r as [|a u].
  - cbn in *. by rewrite Hlast.
  - rewrite IH by exact Hlast. reflexivity.
Qed.

Lemma trim_left_fixed (s : string) : head_ws s = false -> trim_left s = s.
Proof. destruct s as [|c r]; [done|]. cbn. by intros ->. Qed.

End ClassFilterFacts.

Section ClassFilterRules.

Import Str.

Lemma append_cons (c : ascii) (a b : string) : String c a ++ b = String c (a ++ b).
Proof. reflexivity. Qed.

Lemma append_nil (b : string) : "" ++ b = b.
Proof. reflexivity. Qed.

Lemma ng_token_here_before_space (c : ascii) (a rest : string) :
  ng_token_here c a = false -> ng_token_here c (a ++ String " " rest) = false.
Proof.
  rewrite !ng_token_here_eqb. destruct (Ascii.eqb c "n"); [|done]. cbn [andb].
  destruct a as [|g [|x a]]; rewrite ?append_cons, ?append_nil;
    [by destruct rest | by rewrite andb_false_r | done].
Qed.

Lemma strip_keeps_text_without_match (a rest : string) (prev_word : bool) :
  has_ng_token prev_word a = false ->
  strip (Scan prev_word) (a ++ String " " rest) = a ++ String " " (replace_ng rest).
Proof.
  revert prev_word. induction a as [|c a IH]; intros prev_word Hno.
  - rewrite append_nil. cbn. by rewrite andb_false_r.
  - cbn [has_ng_token] in Hno. apply orb_false_elim in Hno as [Hhere Hrest].
    rewrite !append_cons. cbn [strip].
    assert (negb prev_word && ng_token_here c (a ++ String " " rest) = false) as ->.
    { destruct prev_word; [done|]. cbn [negb andb] in *.
      by apply ng_token_here_before_space. }
    f_equal. by apply IH.
Qed.

Lemma strip_token_to_space (t u : string) :
  no_space t = true -> strip InToken (t ++ String " " u) = strip InSpaces u.
Proof.
  induction t as [|c t IH]; [done|]. cbn [no_space]. intros [Hc Ht]%andb_prop.
  rewrite append_cons. cbn [strip]. apply negb_true_iff in Hc. rewrite Hc. by apply IH.
Qed.

Lemma strip_token_to_end (t : string) :
  no_space t = true -> strip InToken t = "".
Proof.
  induction t as [|c t IH]; [done|]. cbn [no_space]. intros [Hc Ht]%andb_prop.
  cbn [strip]. apply negb_true_iff in Hc. rewrite Hc. by apply IH.
Qed.

Lemma strip_spaces (n : nat) (rest : string) :
  strip InSpaces (spaces n ++ rest) = strip InSpaces rest.
Proof. induction n as [|n IH]; [done|]. cbn [spaces]. rewrite append_cons. exact IH. Qed.

Lemma strip_resumes (rest : string) :
  head_sp rest = false -> strip InSpaces rest = replace_ng rest.
Proof.
  destruct rest as [|c r]; [done|]. cbn [head_sp]. intros Hc.
  unfold replace_ng. cbn [strip negb andb]. by rewrite Hc.
Qed.

(** X9: the filter works through a class string piece by piece.  Text
    in which the pattern matches nowhere, followed by a space, is kept
    as it is with that space, and the filter goes on with what
    follows. *)
Theorem class_filter_keeps_text_without_match (a rest : string) :
  has_ng_token false a = false ->
  replace_ng (a ++ String " " rest) = a ++ String " " (replace_ng rest).
Proof. apply strip_keeps_text_without_match. Qed.

Lemma class_filter_keeps_text_without_match_witness :
  replace_ng ("btn big" ++ String " " "ng-valid wide") = "btn big" ++ String " " "wide".
Proof.
  apply (class_filter_keeps_text_without_match "btn big" "ng-valid wide").
  reflexivity.
Defined.

(** X10: a class that begins with [ng] and has at least one more
    character, at the head of the class string, is removed together with
    all the spaces that follow it, and the filter goes on with what comes
    after those spaces; when nothing follows the class, nothing is
    left. *)
Theorem class_filter_drops_leading_framework_class (t rest : string) (n : nat) :
  no_space t = true -> t <> "" -> head_sp rest = false ->
  replace_ng ("ng" ++ t ++ String " " (spaces n ++ rest)) = replace_ng rest
  /\ replace_ng ("ng" ++ t) = "".
Proof.
  intros Ht Hne Hrest. destruct t as [|x t]; [done|].
  cbn [no_space] in Ht. apply andb_prop in Ht as [Hx Ht].
  unfold replace_ng at 1 3. rewrite !append_cons, !append_nil. cbn [strip negb andb].
  rewrite !ng_token_here_eqb. cbn [Ascii.eqb Bool.eqb andb]. rewrite Hx.
  apply negb_true_iff in Hx. rewrite Hx.
  split.
  - by rewrite strip_token_to_space, strip_spaces, strip_resumes.
  - by rewrite strip_token_to_end.
Qed.

Lemma class_filter_drops_leading_framework_class_witness :
  replace_ng ("ng" ++ "-pristine" ++ String " " (spaces 2 ++ "btn ng-valid")) = replace_ng "btn ng-valid"
  /\ replace_ng ("ng" ++ "-pristine") = "".
Proof.
  apply (class_filter_drops_leading_framework_class "-pristine" "btn ng-valid" 2);
    [reflexivity | discriminate | reflexivity].
Defined.

End ClassFilterRules.

(** ** More on the [file] directive *)

Section FileWidgetMore.

Import FileWidget Samples.

Lemma copied_lookup (el : element) (keys : list string) (input : gmap string value) (k : string) :
  copied el keys input !! k
  = if in_dec string_dec k keys
    then (if Str.test_ng k then input !! k else Some (attr_value el k))
    else input !! k.
Proof.
  destruct (in_dec string_dec k keys) as [Hin|Hnot].
  - destruct (Str.test_ng k) eqn:Hng; [by apply copied_reserved | by apply copied_key].
  - by apply copied_absent.
Qed.

Lemma created_input_lookup (k : string) :
  created_input !! k
  = if decide (k = "onchange") then Some (VFunction fid_onchange)
    else if decide (k = "type") then Some (VString "file")
    else None.
Proof.
  unfold created_input. repeat case_decide; subst; by simplify_map_eq.
Qed.

Lemma attr_value_not_function (el : element) (k : string) (fid : nat) :
  attr_value el k <> VFunction fid.
Proof. unfold attr_value. by destruct (attributes el !! Str.lowercase k). Qed.



Lemma changes_bound (evts : list change_event) (c : NgModelController) (n : nat) :
  changes evts {| ngModel := Some c; applies := n |}
  = {| ngModel := Some match last_file_list evts with
                       | Some files => setViewValue (first_entry files) c
                       | None => c
                       end;
       applies := n + length evts |}.
Proof.
  revert c n. induction evts as [|evt evts IH]; intros c n.
  - cbn. by rewrite Nat.add_0_r.
  - unfold changes in *. cbn [fold_left last_file_list length].
    destruct evt as [[files|]]; cbn; rewrite IH, Nat.add_succ_r;
      by destruct (last_file_list evts).
Qed.

(** X2: on a bound widget, after any run of change events the bound value
    is the first entry of the file list of the last event that carried
    one, and the value bound before if none did; [scope.$apply()] has run
    once per event. *)
Theorem file_changes_bind_last_selection
  (evts : list change_event) (c : NgModelController) (n : nat) :
  option_map modelValue (ngModel (changes evts {| ngModel := Some c; applies := n |}))
  = Some match last_file_list evts with
         | Some files => first_entry files
         | None => modelValue c
         end
  /\ applies (changes evts {| ngModel := Some c; applies := n |}) = n + length evts.
Proof.
  rewrite changes_bound. cbn. split; [|done].
  by destruct (last_file_list evts).
Qed.

Lemma linked_inversion (attrs : list (string * value)) (el el' : element) :
  link attrs el = (Normal tt, el') ->
  exists cls,
    attributes el !! "class" = Some cls
    /\ el' = {| attributes := <["class" := ""]> (attributes el);
                children := children el ++
                  [<["className" := VString (Str.trim (Str.replace_ng cls))]>
                     (copied el (map fst attrs) created_input)] |}.
Proof.
  intros Hlink. rewrite link_closed_form in Hlink.
  destruct (attributes el !! "class") as [cls|]; [|discriminate].
  exists cls. split; [done|]. congruence.
Qed.

(** X3: the properties [link] writes on the input are [type], [onchange],
    [className] and the keys of [attrs] that do not begin with [ng], and
    no other. *)
Theorem file_link_writes_only_declared_properties
  (attrs : list (string * value)) (el el' : element) :
  link attrs el = (Normal tt, el') ->
  exists input,
    children el' = (children el ++ [input])%list
    /\ forall k,
         is_Some (input !! k)
         <-> (k = "type" \/ k = "onchange" \/ k = "className"
              \/ (In k (map fst attrs) /\ Str.test_ng k = false)).
Proof.
  intros Hlink. destruct (linked_inversion attrs el el' Hlink) as (cls & _ & ->). eexists. split; [reflexivity|].
  intros k. destruct (decide (k = "className")) as [->|Hk].
  - rewrite lookup_insert_eq. split; [auto|by eauto].
  - rewrite lookup_insert_ne by done. rewrite copied_lookup, created_input_lookup.
    destruct (in_dec string_dec k (map fst attrs)) as [Hin|Hnot];
      [destruct (Str.test_ng k) eqn:Hng|]; repeat case_decide; subst;
      split; intros Hyp; try (by eauto); try (by auto 6);
      try (by destruct Hyp as [? ?]);
      destruct Hyp as [?|[?|[?|[? ?]]]]; done.
Qed.

(** X5: after a completed [link] the input has the change handler of
    lines 12-17 exactly when [attrs] has no key [onchange]; with such a
    key the value last assigned to [input.onchange] is a string or
    [undefined], which the DOM turns into [null], so that the input is
    left without a change handler.  In the same way the input is a file
    chooser when [attrs] has no key [type], and with such a key only if
    the custom element's [type] attribute is [file], in any letter
    case. *)
Theorem file_link_handler_survives_unless_overridden
  (attrs : list (string * value)) (el el' : element) :
  link attrs el = (Normal tt, el') ->
  exists input,
    children el' = (children el ++ [input])%list
    /\ (change_handler input = Some (VFunction fid_onchange)
        <-> ~ In "onchange" (map fst attrs))
    /\ (In "onchange" (map fst attrs) -> change_handler input = None)
    /\ (~ In "type" (map fst attrs) -> is_file_input input = true)
    /\ (In "type" (map fst attrs) ->
        is_file_input input
        = match attributes el !! "type" with
          | Some t => String.eqb (Str.lowercase t) "file"
          | None => false
          end).
Proof.
  intros Hlink. destruct (linked_inversion attrs el el' Hlink) as (cls & _ & ->).
  eexists. split; [reflexivity|].
  unfold change_handler, is_file_input.
  rewrite !lookup_insert_ne by done. rewrite !copied_lookup, !created_input_lookup.
  change (Str.test_ng "onchange") with false. change (Str.test_ng "type") with false.
  unfold attr_value.
  change (Str.lowercase "onchange") with "onchange".
  change (Str.lowercase "type") with "type".
  change (BOOLEAN_ATTR "onchange") with false. change (BOOLEAN_ATTR "type") with false.
  destruct (in_dec string_dec "onchange" (map fst attrs)),
           (in_dec string_dec "type" (map fst attrs));
    repeat case_decide; try done;
    destruct (attributes el !! "onchange"), (attributes el !! "type");
    repeat split; done.
Qed.

(** X6: of the custom element, a completed [link] changes the [class]
    attribute and nothing else among the attributes, keeps the children
    it had, in their order, and adds one node after them. *)
Theorem file_link_frame
  (attrs : list (string * value)) (el el' : element) :
  link attrs el = (Normal tt, el') ->
  (forall k, k <> "class" -> attributes el' !! k = attributes el !! k)
  /\ length (children el') = S (length (children el))
  /\ firstn (length (children el)) (children el') = children el.
Proof.
  intros Hlink. destruct (linked_inversion attrs el el' Hlink) as (cls & _ & ->). cbn [attributes children].
  split; [|split].
  - intros k Hk. by rewrite lookup_insert_ne.
  - rewrite length_app. cbn. lia.
  - by rewrite firstn_app, Nat.sub_diag, firstn_all, app_nil_r.
Qed.

(** X7: in the [className] the input gets, the pattern of line 24 matches
    nowhere: no class of the framework is left in it. *)
Theorem file_link_className_has_no_framework_class
  (attrs : list (string * value)) (el el' : element) :
  link attrs el = (Normal tt, el') ->
  exists input k,
    children el' = (children el ++ [input])%list
    /\ input !! "className" = Some (VString k)
    /\ Str.has_ng_token false k = false.
Proof.
  intros Hlink. destruct (linked_inversion attrs el el' Hlink) as (cls & _ & ->). do 2 eexists.
  split; [reflexivity|]. split; [apply lookup_insert_eq|].
  apply trim_leaves_no_match.
  apply (proj1 (strip_leaves_no_match cls) false).
Qed.

(** X8: the [className] the input gets neither begins nor ends with white
    space, so that trimming it again changes nothing. *)
Theorem file_link_className_is_trimmed
  (attrs : list (string * value)) (el el' : element) :
  link attrs el = (Normal tt, el') ->
  exists input k,
    children el' = (children el ++ [input])%list
    /\ input !! "className" = Some (VString k)
    /\ Str.head_ws k = false /\ Str.last_ws k = false /\ Str.trim k = k.
Proof.
  intros Hlink. destruct (linked_inversion attrs el el' Hlink) as (cls & _ & ->). do 2 eexists.
  split; [reflexivity|]. split; [apply lookup_insert_eq|].
  assert (Str.head_ws (Str.trim (Str.replace_ng cls)) = false) as Hhead
    by apply head_ws_trim_right, head_ws_trim_left.
  assert (Str.last_ws (Str.trim (Str.replace_ng cls)) = false) as Hlast
    by apply last_ws_trim_right.
  split; [exact Hhead|]. split; [exact Hlast|].
  unfold Str.trim at 1. rewrite trim_left_fixed by exact Hhead.
  by apply trim_right_fixed.
Qed.

End FileWidgetMore.

(** ** More on the [localImage] directive *)

Section LocalImageMore.

Import LocalImage Samples.

Variable dataURL : file -> string.
Variable w : window.

Lemma file_handle_inversion (d : value) :
  is_file_handle w d = true -> has_File w = true /\ exists f, d = VFile f.
Proof.
  unfold is_file_handle. intros [[Hw _]%andb_prop Hd]%andb_prop.
  split; [exact Hw|]. destruct d; try discriminate. eauto.
Qed.

Lemma listener_img (d : value) (s : state) :
  img (snd (watch_listener w d s))
  = {| style_display := if is_file_handle w d then "" else "none"; src := src (img s) |}.
Proof.
  unfold watch_listener. destruct (is_file_handle w d) eqn:Hd; [|done].
  apply file_handle_inversion in Hd as [_ [f ->]].
  unfold bind, set_display, modify, readAsDataURL. cbn. by destruct (reader s).
Qed.

Lemma listener_watchers (d : value) (s : state) :
  watchers (snd (watch_listener w d s)) = watchers s.
Proof.
  unfold watch_listener. destruct (is_file_handle w d) eqn:Hd; [|done].
  apply file_handle_inversion in Hd as [_ [f ->]].
  unfold bind, set_display, modify, readAsDataURL. cbn. by destruct (reader s).
Qed.

Lemma listener_reader (d : value) (s : state) :
  reader (snd (watch_listener w d s))
  = if is_file_handle w d
    then match d, reader s with
         | VFile f, EMPTY | VFile f, DONE _ => LOADING f
         | _, r => r
         end
    else reader s.
Proof.
  unfold watch_listener. destruct (is_file_handle w d) eqn:Hd; [|done].
  apply file_handle_inversion in Hd as [_ [f ->]].
  unfold bind, set_display, modify, readAsDataURL. cbn. by destruct (reader s).
Qed.

(** The calls of the listener in one digest, over the watches [l]. *)
Lemma digest_invariant (P : state -> Prop) (d : value) (l : list value) (s : state) :
  P s -> (forall s, P s -> P (snd (watch_listener w d s))) ->
  P (fold_left (fun s _ => snd (watch_listener w d s)) l s).
Proof.
  intros Hs Hkeep. revert s Hs. induction l as [|e l IH]; intros s Hs; [done|].
  cbn [fold_left]. by apply IH, Hkeep.
Qed.

Lemma digest_watchers (d : value) (s : state) : watchers (digest w d s) = watchers s.
Proof.
  unfold digest.
  apply (digest_invariant (fun s' => watchers s' = watchers s)); [done|].
  intros s' <-. apply listener_watchers.
Qed.

Lemma digest_src (d : value) (s : state) : src (img (digest w d s)) = src (img s).
Proof.
  unfold digest.
  apply (digest_invariant (fun s' => src (img s') = src (img s))); [done|].
  intros s' <-. by rewrite listener_img.
Qed.

Lemma digest_display (d : value) (s : state) :
  watchers s <> [] ->
  style_display (img (digest w d s)) = if is_file_handle w d then "" else "none".
Proof.
  unfold digest. destruct (watchers s) as [|e l]; [done|]. intros _. cbn [fold_left].
  apply (digest_invariant
           (fun s' => style_display (img s') = if is_file_handle w d then "" else "none")).
  - by rewrite listener_img.
  - intros s' _. by rewrite listener_img.
Qed.

Lemma digest_reader_busy (d : value) (s : state) (f : file) :
  reader s = LOADING f -> reader (digest w d s) = LOADING f.
Proof.
  intros Hf. unfold digest.
  apply (digest_invariant (fun s' => reader s' = LOADING f)); [done|].
  intros s' Hs'. rewrite listener_reader, Hs'.
  destruct (is_file_handle w d); [|done]. by destruct d.
Qed.

Lemma digest_reader_other (d : value) (s : state) :
  is_file_handle w d = false -> reader (digest w d s) = reader s.
Proof.
  intros Hd. unfold digest.
  apply (digest_invariant (fun s' => reader s' = reader s)); [done|].
  intros s' <-. by rewrite listener_reader, Hd.
Qed.

Lemma digest_reader_file (f : file) (s : state) :
  has_File w = true -> watchers s <> [] -> (forall g, reader s <> LOADING g) ->
  reader (digest w (VFile f) s) = LOADING f.
Proof.
  intros Hw Hwatch Hidle. unfold digest.
  destruct (watchers s) as [|e l]; [done|]. cbn [fold_left].
  apply (digest_invariant (fun s' => reader s' = LOADING f)).
  - rewrite listener_reader, file_is_file_handle by done.
    destruct (reader s) as [|g|r] eqn:Hr; [done | by destruct (Hidle g) | done].
  - intros s' Hs'. rewrite listener_reader, Hs'. by destruct (is_file_handle w (VFile f)).
Qed.

Lemma digest_reader_cases (d : value) (s : state) :
  reader (digest w d s) = reader s
  \/ exists f, d = VFile f /\ reader (digest w d s) = LOADING f.
Proof.
  unfold digest.
  apply (digest_invariant
           (fun s' => reader s' = reader s \/ exists f, d = VFile f /\ reader s' = LOADING f));
    [by left|].
  intros s' Hs'. rewrite listener_reader.
  destruct (is_file_handle w d) eqn:Hd; [|exact Hs'].
  apply file_handle_inversion in Hd as [_ [f ->]].
  destruct (reader s') as [|g|r] eqn:Hr; [right; eauto | exact Hs' | right; eauto].
Qed.

Lemma step_watchers (s : state) (e : event) : watchers (step dataURL w s e) = watchers s.
Proof.
  destruct e; cbn; [apply digest_watchers | by destruct (reader s) ..].
Qed.

Lemma run_watchers (es : list event) (s : state) :
  watchers (run dataURL w es s) = watchers s.
Proof.
  revert s. induction es as [|e es IH]; intros s; [done|].
  unfold run in *. cbn [fold_left]. by rewrite IH, step_watchers.
Qed.

Lemma run_app (es es' : list event) (s : state) :
  run dataURL w (es ++ es') s = run dataURL w es' (run dataURL w es s).
Proof. apply fold_left_app. Qed.

(** From a state in which every file being read satisfies [P], and over
    events whose observed files satisfy [P], the source stays what it was
    or becomes the data URL of a file that satisfies [P]. *)
Lemma run_src_provenance (P : file -> Prop) (es : list event) (s : state) :
  (forall g, reader s = LOADING g -> P g) ->
  (forall f, In (HostChange (VFile f)) es -> P f) ->
  src (img (run dataURL w es s)) = src (img s)
  \/ exists f, P f /\ src (img (run dataURL w es s)) = dataURL f.
Proof.
  revert s. induction es as [|e es IH]; intros s Hreading Hobserved; [by left|].
  change (run dataURL w (e :: es) s) with (run dataURL w es (step dataURL w s e)).
  assert (forall f, In (HostChange (VFile f)) es -> P f) as Hlater
    by (intros f Hin; apply Hobserved; by right).
  destruct e as [d| |]; cbn [step].
  - rewrite <- (digest_src d s). apply IH; [|exact Hlater].
    intros g Hg. destruct (digest_reader_cases d s) as [Hsame|(f & -> & Hf)].
    + apply Hreading. congruence.
    + apply Hobserved. left. congruence.
  - destruct (reader s) as [|f|r] eqn:Hr; try (apply IH; [by rewrite Hr|exact Hlater]).
    destruct (IH (snd (reader_onload (dataURL f)
                         {| img := img s; reader := DONE (Some (dataURL f));
                            watchers := watchers s |})))
      as [Hkept|Hnew]; [done | exact Hlater | | by right].
    right. exists f. split; [by apply Hreading|]. by rewrite Hkept.
  - destruct (reader s) as [|f|r] eqn:Hr; try (apply IH; [by rewrite Hr|exact Hlater]).
    apply (IH {| img := img s; reader := DONE None; watchers := watchers s |});
      [done|exact Hlater].
Qed.

End LocalImageMore.

Section LocalImageBehaviour.

Import LocalImage Samples.

Variable dataURL : file -> string.
Variable w : window.

(** X11: the guard of line 43 looks at the value of the attribute: when
    [attrs.ngModel] is falsy, as for [ng-model=""], no watch is registered
    and no later event changes the instance, just as without the
    attribute. *)
Theorem preview_empty_binding_is_no_binding
  (attrs : list (string * value)) (i : image) (es : list event) :
  truthy (attrs_get attrs "ngModel") = false ->
  watchers (link attrs i) = []
  /\ run dataURL w es (link attrs i) = link attrs i.
Proof.
  intros Hfalsy.
  assert (watchers (link attrs i) = []) as Hw by (unfold link; cbn; by rewrite Hfalsy).
  split; [exact Hw|]. by apply run_idle.
Qed.

(** X12: on a bound widget the visibility of the image after a digest
    depends on the observed value alone, whatever happened before and
    whether or not the reader could take the file: visible for a [File],
    hidden for anything else. *)
Theorem preview_visibility_follows_latest_value
  (attrs : list (string * value)) (i : image) (es : list event) (d : value) :
  truthy (attrs_get attrs "ngModel") = true ->
  style_display (img (run dataURL w (es ++ [HostChange d]) (link attrs i)))
  = if is_file_handle w d then "" else "none".
Proof.
  intros Hbound. rewrite run_app. cbn. apply digest_display.
  rewrite run_watchers. unfold link. cbn. by rewrite Hbound.
Qed.

(** X13: whatever happens after [link], the source of the image is the
    one it had, or the data URL of a file that was observed; the widget
    never puts anything else there. *)
Theorem preview_source_comes_from_observed_file
  (attrs : list (string * value)) (i : image) (es : list event) :
  src (img (run dataURL w es (link attrs i))) = src i
  \/ exists f, In (HostChange (VFile f)) es
               /\ src (img (run dataURL w es (link attrs i))) = dataURL f.
Proof.
  apply (run_src_provenance dataURL w (fun f => In (HostChange (VFile f)) es));
    [discriminate | done].
Qed.

(** X14: on a platform without [window.File] no value counts as a file:
    whatever is observed, no read is ever started and the source of the
    image never changes. *)
Theorem preview_without_file_api_never_reads
  (attrs : list (string * value)) (i : image) (es : list event) :
  has_File w = false ->
  (forall d, is_file_handle w d = false)
  /\ reader (run dataURL w es (link attrs i)) = EMPTY
  /\ src (img (run dataURL w es (link attrs i))) = src i.
Proof.
  intros Hw.
  assert (forall d, is_file_handle w d = false) as Hnone
    by (intros d; unfold is_file_handle; by rewrite Hw).
  split; [exact Hnone|].
  assert (forall s, reader s = EMPTY ->
                    reader (run dataURL w es s) = EMPTY
                    /\ src (img (run dataURL w es s)) = src (img s)) as Hrun.
  { induction es as [|e es' IH]; intros s Hs; [done|].
    change (run dataURL w (e :: es') s) with (run dataURL w es' (step dataURL w s e)).
    assert (reader (step dataURL w s e) = EMPTY
            /\ src (img (step dataURL w s e)) = src (img s)) as [Hr Hsrc].
    { destruct e as [d| |]; cbn; rewrite ?Hs; [|done..].
      by rewrite digest_reader_other, digest_src. }
    destruct (IH _ Hr) as [-> ->]. done. }
  by apply Hrun.
Qed.

(** X15: while a read is in flight, no observed value, file or not,
    changes which file is being read or touches the source; when the read
    completes, the source is the data URL of the file whose read was in
    flight. *)
Theorem preview_read_in_flight_wins (s : state) (f : file) (ds : list value) :
  reader s = LOADING f ->
  reader (run dataURL w (map HostChange ds) s) = LOADING f
  /\ src (img (run dataURL w (map HostChange ds) s)) = src (img s)
  /\ src (img (run dataURL w (map HostChange ds ++ [ReadDone]) s)) = dataURL f.
Proof.
  intros Hf.
  assert (reader (run dataURL w (map HostChange ds) s) = LOADING f
          /\ src (img (run dataURL w (map HostChange ds) s)) = src (img s)) as [Hr Hsrc].
  { revert s Hf. induction ds as [|d ds IH]; intros s Hf; [done|].
    change (run dataURL w (map HostChange (d :: ds)) s)
      with (run dataURL w (map HostChange ds) (digest w d s)).
    destruct (IH (digest w d s)) as [-> ->]; [by apply digest_reader_busy|].
    by rewrite digest_src. }
  split; [exact Hr|]. split; [exact Hsrc|].
  rewrite run_app. cbn. by rewrite Hr.
Qed.

(** X16: a read that fails leaves the image as it is, visible with the
    source it had, and frees the reader: the next file observed is taken
    up. *)
Theorem preview_failed_read_keeps_image (s : state) (f g : file) :
  has_File w = true -> reader s = LOADING f ->
  img (step dataURL w s ReadFailed) = img s
  /\ watch_listener w (VFile g) (step dataURL w s ReadFailed)
     = (Normal tt,
        {| img := {| style_display := ""; src := src (img s) |};
           reader := LOADING g;
           watchers := watchers s |}).
Proof.
  intros Hw Hf. cbn. rewrite Hf. split; [done|].
  unfold watch_listener. by rewrite file_is_file_handle.
Qed.

Lemma one_by_one_ready (fs : list file) (s : state) :
  has_File w = true -> watchers s <> [] -> (forall g, reader s <> LOADING g) ->
  forall g, reader (run dataURL w (one_by_one fs) s) <> LOADING g.
Proof.
  intros Hw. revert s. induction fs as [|f fs IH]; intros s Hwatch Hidle; [exact Hidle|].
  change (run dataURL w (one_by_one (f :: fs)) s)
    with (run dataURL w (one_by_one fs)
            (step dataURL w (digest w (VFile f) s) ReadDone)).
  apply IH; cbn; rewrite digest_reader_file by done; cbn; [|done].
  by rewrite digest_watchers.
Qed.

(** X17: on a bound widget whose reader is not busy, files chosen one
    after the other, each read to its end before the next is observed, are
    all read: in the end the image is visible and its source is the data
    URL of the last file. *)
Theorem preview_files_one_by_one (fs : list file) (f : file) (s : state) :
  has_File w = true -> watchers s <> [] -> (forall g, reader s <> LOADING g) ->
  img (run dataURL w (one_by_one (fs ++ [f])) s)
  = {| style_display := ""; src := dataURL f |}.
Proof.
  intros Hw Hwatch Hidle. unfold one_by_one. rewrite flat_map_app, run_app.
  fold (one_by_one fs). set (s1 := run dataURL w (one_by_one fs) s).
  assert (watchers s1 <> []) as Hwatch1 by (unfold s1; by rewrite run_watchers).
  assert (forall g, reader s1 <> LOADING g) as Hidle1 by by apply one_by_one_ready.
  cbn. rewrite digest_reader_file by done. cbn.
  rewrite digest_display by done. by rewrite file_is_file_handle.
Qed.

End LocalImageBehaviour.

(** ** More on the [professorslist] directive *)

Section ProfessorsListMore.

Import ProfessorsList Samples.

(** X18: whatever is bound and selected, and whether it raises or not,
    [selectProfessor] leaves the scope as it is, and it makes at most one
    call: of the function bound to [on-select], with the selection as
    the only argument. *)
Theorem selectProfessor_frame (s : state) :
  sc (snd (selectProfessor s)) = sc s
  /\ (calls (snd (selectProfessor s)) = calls s
      \/ exists fid,
           onSelect (sc s) = VFunction fid
           /\ calls (snd (selectProfessor s))
              = (calls s ++ [(fid, [selectedProfessor (sc s)])])%list).
Proof.
  unfold selectProfessor, bind, get. cbn.
  destruct (truthy (selectedProfessor (sc s))); cbn; [|by auto].
  destruct (truthy (onSelect (sc s)) && truthy (get_prop (onSelect (sc s)) "call"));
    cbn; [|by auto].
  unfold call. destruct (onSelect (sc s)); cbn; eauto.
Qed.


Lemma confirm_with_function (n : nat) (s : state) (fid : nat) :
  truthy (selectedProfessor (sc s)) = true -> onSelect (sc s) = VFunction fid ->
  confirm n s
  = {| sc := sc s; calls := calls s ++ repeat (fid, [selectedProfessor (sc s)]) n |}.
Proof.
  revert s. induction n as [|n IH]; intros s Hsel Hon.
  - cbn. rewrite app_nil_r. by destruct s.
  - cbn [confirm repeat].
    assert (snd (selectProfessor s)
            = {| sc := sc s; calls := calls s ++ [(fid, [selectedProfessor (sc s)])] |})
      as -> by (unfold selectProfessor, bind, get; cbn; by rewrite Hsel, Hon).
    rewrite IH by done. cbn. by rewrite <- app_assoc.
Qed.

(** X20: a confirmation does not reset the selection, so with a record
    [R] selected and a function bound to [on-select], [n] confirmations
    in a row call that function [n] times, each time with [R], and leave
    the scope as it was. *)
Theorem selectProfessor_repeats (n : nat) (s : state) (R : value) (fid : nat) :
  selectedProfessor (sc s) = R -> truthy R = true -> onSelect (sc s) = VFunction fid ->
  confirm n s = {| sc := sc s; calls := calls s ++ repeat (fid, [R]) n |}.
Proof.
  intros <- Hsel Hon. by apply confirm_with_function.
Qed.


Lemma selectProfessor_repeats_witness :
  confirm 3 (picked_B host_callback)
  = {| sc := sc (picked_B host_callback);
       calls := [(7, [professor_B]); (7, [professor_B]); (7, [professor_B])] |}.
Proof.
  apply (selectProfessor_repeats 3 (picked_B host_callback) professor_B 7); reflexivity.
Defined.

End ProfessorsListMore.

(** ** The further properties on concrete inputs *)

Section FileWidgetMoreExamples.

Import FileWidget Samples.

Lemma file_link_writes_only_declared_properties_witness :
  exists input,
    children (snd (link bound_file_attrs bound_file_element)) = [input]
    /\ is_Some (input !! "class")
    /\ input !! "ngModel" = None.
Proof.
  destruct (file_link_writes_only_declared_properties bound_file_attrs bound_file_element
              (snd (link bound_file_attrs bound_file_element)))
    as (input & Hchildren & Hprops); [vm_compute; reflexivity|].
  exists input. split; [exact Hchildren|]. split.
  - apply Hprops. right; right; right. split; [simpl; tauto | reflexivity].
  - apply eq_None_not_Some. intros Hsome. apply Hprops in Hsome.
    destruct Hsome as [Hk|[Hk|[Hk|[_ Hk]]]]; discriminate Hk.
Defined.

Lemma file_link_handler_survives_unless_overridden_witness :
  (exists input,
     children (snd (link plain_file_attrs plain_file_element)) = [input]
     /\ change_handler input = Some (VFunction fid_onchange)
     /\ is_file_input input = true)
  /\ (exists input,
        children (snd (link overriding_file_attrs overriding_file_element)) = [input]
        /\ change_handler input = None
        /\ is_file_input input = false).
Proof.
  split.
  - destruct (file_link_handler_survives_unless_overridden plain_file_attrs plain_file_element
                (snd (link plain_file_attrs plain_file_element)))
      as (input & Hchildren & Hkept & _ & Htype & _); [vm_compute; reflexivity|].
    exists input. split; [exact Hchildren|]. split.
    + apply Hkept. simpl. intuition discriminate.
    + apply Htype. simpl. intuition discriminate.
  - destruct (file_link_handler_survives_unless_overridden overriding_file_attrs
                overriding_file_element
                (snd (link overriding_file_attrs overriding_file_element)))
      as (input & Hchildren & _ & Hgone & _ & Htype); [vm_compute; reflexivity|].
    exists input. split; [exact Hchildren|]. split.
    + apply Hgone. simpl. tauto.
    + rewrite Htype by (simpl; tauto). reflexivity.
Defined.

Lemma file_link_frame_witness :
  attributes (snd (link plain_file_attrs plain_file_element)) !! "accept" = Some "image/*"
  /\ length (children (snd (link plain_file_attrs plain_file_element))) = 1.
Proof.
  destruct (file_link_frame plain_file_attrs plain_file_element
              (snd (link plain_file_attrs plain_file_element)))
    as (Hattrs & Hlength & _); [vm_compute; reflexivity|].
  split; [|exact Hlength].
  rewrite Hattrs by discriminate. reflexivity.
Defined.

Lemma file_link_className_has_no_framework_class_witness :
  exists input k,
    children (snd (link bound_file_attrs bound_file_element)) = [input]
    /\ input !! "className" = Some (VString k)
    /\ Str.has_ng_token false k = false.
Proof.
  apply (file_link_className_has_no_framework_class bound_file_attrs bound_file_element
           (snd (link bound_file_attrs bound_file_element))).
  vm_compute; reflexivity.
Defined.

Lemma file_link_className_is_trimmed_witness :
  exists input k,
    children (snd (link bound_file_attrs bound_file_element)) = [input]
    /\ input !! "className" = Some (VString k)
    /\ Str.head_ws k = false /\ Str.last_ws k = false /\ Str.trim k = k.
Proof.
  apply (file_link_className_is_trimmed bound_file_attrs bound_file_element
           (snd (link bound_file_attrs bound_file_element))).
  vm_compute; reflexivity.
Defined.

End FileWidgetMoreExamples.

Section LocalImageMoreExamples.

Import LocalImage Samples.

Lemma preview_empty_binding_is_no_binding_witness :
  watchers (link empty_binding_image_attrs blank_image) = []
  /\ run sample_dataURL browser [HostChange (VFile photo); ReadDone]
       (link empty_binding_image_attrs blank_image)
     = link empty_binding_image_attrs blank_image.
Proof.
  apply (preview_empty_binding_is_no_binding sample_dataURL browser
           empty_binding_image_attrs blank_image [HostChange (VFile photo); ReadDone]).
  reflexivity.
Defined.

Lemma preview_visibility_follows_latest_value_witness :
  style_display
    (img (run sample_dataURL browser
            ([HostChange (VFile photo); HostChange (VFile scan)] ++ [HostChange VNull])
            (link bound_image_attrs blank_image)))
  = "none".
Proof.
  apply (preview_visibility_follows_latest_value sample_dataURL browser
           bound_image_attrs blank_image
           [HostChange (VFile photo); HostChange (VFile scan)] VNull).
  reflexivity.
Defined.

Lemma preview_without_file_api_never_reads_witness :
  reader (run sample_dataURL old_browser [HostChange (VFile photo); ReadDone]
            (link bound_image_attrs blank_image)) = EMPTY
  /\ src (img (run sample_dataURL old_browser [HostChange (VFile photo); ReadDone]
                 (link bound_image_attrs blank_image))) = "".
Proof.
  destruct (preview_without_file_api_never_reads sample_dataURL old_browser
              bound_image_attrs blank_image [HostChange (VFile photo); ReadDone])
    as (_ & Hreader & Hsrc); [reflexivity|].
  split; [exact Hreader | exact Hsrc].
Defined.

Lemma preview_read_in_flight_wins_witness :
  reader (run sample_dataURL browser (map HostChange [VFile scan; VNull]) reading_photo)
  = LOADING photo
  /\ src (img (run sample_dataURL browser (map HostChange [VFile scan; VNull] ++ [ReadDone])
                 reading_photo))
     = "data:image/png;base64,PNG1".
Proof.
  destruct (preview_read_in_flight_wins sample_dataURL browser reading_photo photo
              [VFile scan; VNull])
    as (Hreader & _ & Hsrc); [reflexivity|].
  split; [exact Hreader | exact Hsrc].
Defined.

Lemma preview_failed_read_keeps_image_witness :
  img (step sample_dataURL browser reading_photo ReadFailed) = img reading_photo
  /\ watch_listener browser (VFile scan) (step sample_dataURL browser reading_photo ReadFailed)
     = (Normal tt,
        {| img := {| style_display := ""; src := "old.png" |};
           reader := LOADING scan;
           watchers := [VString "course.thumbnail"] |}).
Proof.
  apply (preview_failed_read_keeps_image sample_dataURL browser reading_photo photo scan);
    reflexivity.
Defined.

Lemma preview_files_one_by_one_witness :
  img (run sample_dataURL browser (one_by_one ([photo] ++ [scan]))
         (link bound_image_attrs blank_image))
  = {| style_display := ""; src := "data:image/jpeg;base64,JFIF" |}.
Proof.
  apply (preview_files_one_by_one sample_dataURL browser [photo] scan
           (link bound_image_attrs blank_image));
    [reflexivity | simpl; discriminate | simpl; discriminate].
Defined.

End LocalImageMoreExamples.
